(** * lamp-client: a shallow embedding of [lamp.py], [switch.py] and [client.py]

    Python integers are unbounded, so they are modelled by [Z] with the
    bit operations of [Z] (two's complement on negative numbers, as in
    Python).  Python floats are IEEE-754 binary64 values, modelled by
    [spec_float] with the IEEE comparisons [SFltb]/[SFleb].  Mutable objects
    and the process environment (standard output, the clock, the network)
    are threaded explicitly through a state-and-exception monad: a raised
    exception keeps every mutation made before it, as in Python. *)

From Stdlib Require Import ZArith Lia Bool Ascii String.
From Stdlib Require Import SpecFloat.
From stdpp Require Import base option list gmap strings.

Set Warnings "-register-all".

Local Open Scope string_scope.
Local Open Scope list_scope.
Local Open Scope Z_scope.

(** ** Exceptions and the state-and-exception monad *)

Inductive Exn : Type :=
| Exception (msg : string)
| ValueError
| TypeError
| IndexError
| KeyError (key : string)
| OverflowError
| ConnectionError.

Inductive Result (A : Type) : Type :=
| Ok (a : A)
| Raise (e : Exn).
Arguments Ok {A} a.
Arguments Raise {A} e.

Definition M (S A : Type) : Type := S -> Result A * S.

Definition ret {S A} (a : A) : M S A := fun s => (Ok a, s).

Definition bind {S A B} (m : M S A) (k : A -> M S B) : M S B :=
  fun s =>
    match m s with
    | (Ok a, s') => k a s'
    | (Raise e, s') => (Raise e, s')
    end.

Definition raise {S A} (e : Exn) : M S A := fun s => (Raise e, s).
Definition get {S} : M S S := fun s => (Ok s, s).
Definition put {S} (s : S) : M S unit := fun _ => (Ok tt, s).
Definition modify {S} (f : S -> S) : M S unit := fun s => (Ok tt, f s).

(** A pure computation that may raise, run inside the monad. *)
Definition lift {S A} (r : Result A) : M S A := fun s => (r, s).

Declare Scope py_scope.
Delimit Scope py_scope with py.
Notation "x <- m ;; k" := (bind m (fun x => k))
  (at level 100, m at next level, right associativity) : py_scope.
Notation "m ;; k" := (bind m (fun _ => k))
  (at level 100, right associativity) : py_scope.

(** [for x in xs: body x] *)
Fixpoint for_each {S A} (xs : list A) (body : A -> M S unit) : M S unit :=
  match xs with
  | [] => ret tt
  | x :: rest => (body x ;; for_each rest body)%py
  end.

(** [range(n)]: empty when [n <= 0]. *)
Definition range (n : Z) : list Z := Z.of_nat <$> seq 0 (Z.to_nat n).

(** ** Values shared by the three files *)

(** [Tuple[int, int, int]] *)
Abbreviation Rgb := (Z * Z * Z)%type.

(** Python [float]: 0.0 and 1.0 as binary64 values. *)
Abbreviation float := spec_float.
Definition f0_0 : float := S754_zero false.
Definition f1_0 : float := S754_finite false 4503599627370496 (-52).

(** Values a request dictionary holds. *)
Inductive Any : Type :=
| AStr (s : string)
| AInt (z : Z).

(** What [response.json()] returns. *)
Inductive Json : Type :=
| JNone
| JBool (b : bool)
| JInt (z : Z)
| JFloat (f : float)
| JStr (s : string)
| JList (items : list Json)
| JDict (items : list (string * Json)).

Inductive Request : Type :=
| GET (url : string) (data : gmap string Any)
| POST (url : string) (data : gmap string Any).

(** Lines written by [print], one constructor per format string. *)
Inductive Line : Type :=
| CreatedConsoleLamp (rgb : Rgb) (brightness : float)
| LampIsCurrentlyOn
| LampIsCurrentlyOff
| ColorNowSetTo (rgb : Rgb)
| CurrentColor (rgb : Rgb)
| BrightnessNow (brightness : float)
| CurrentBrightness (brightness : float)
| NowFlashing (n_flashes : Z)
| Flash (i : Z)
| DoneFlashing
| StartingPulsations (n_pulsations n_seconds : Z)
| PulsationStart (i : Z)
| PulsationFinish (i : Z)
| FinishedPulsations
| NewColor (new_color : Rgb) (response : Json).

(** The environment of the process: what was printed, what [time.sleep]
    was asked to wait, the requests sent so far, and the outcomes the remote
    store will give to the next requests (an outcome is the parsed body, or
    the exception raised by the request or by [.json()]). *)
Record World : Type := mkWorld {
  stdout : list Line;
  slept : list Z;
  sent : list Request;
  inbox : list (Result Json)
}.

(** A state that contains the environment: the environment itself, or an
    object together with the environment. *)
Class Env (S : Type) : Type := {
  world : S -> World;
  with_world : World -> S -> S
}.

#[export] Instance Env_World : Env World :=
  {| world := fun w => w; with_world := fun w _ => w |}.

#[export] Instance Env_object {O} : Env (O * World) :=
  {| world := snd; with_world := fun w s => (fst s, w) |}.

Definition print {S} `{Env S} (l : Line) : M S unit :=
  modify (fun s =>
    let w := world s in
    with_world (mkWorld (stdout w ++ [l]) (slept w) (sent w) (inbox w)) s).

(** [time.sleep(secs)]: a negative argument raises [ValueError]. *)
Definition sleep {S} `{Env S} (secs : Z) : M S unit :=
  if secs <? 0 then raise ValueError
  else modify (fun s =>
    let w := world s in
    with_world (mkWorld (stdout w) (slept w ++ [secs]) (sent w) (inbox w)) s).

(** [requests.get(url, data=data).json()] and the same for [post]: the
    request leaves the process, then the remote's next outcome is taken
    (no outcome left: the remote is unreachable). *)
Definition http {S} `{Env S} (req : Request) : M S Json :=
  fun s =>
    let w := world s in
    let sent' := sent w ++ [req] in
    match inbox w with
    | [] =>
        (Raise ConnectionError,
         with_world (mkWorld (stdout w) (slept w) sent' []) s)
    | r :: rest =>
        (r, with_world (mkWorld (stdout w) (slept w) sent' rest) s)
    end.

(** ** lamp.py *)

Module lamp.

Fixpoint validate_color_loop (vals : list Z) : bool :=
  match vals with
  | [] => true
  | val :: rest =>
      if (val <? 0) || (val >? 255) then false
      else validate_color_loop rest
  end.

(** [validate_color]: the loop over the three channels returns [False] at
    the first one out of bounds ([piece] is computed and never used). *)
Definition validate_color (rgb : Rgb) : bool :=
  let '(red, green, blue) := rgb in
  validate_color_loop [red; green; blue].

Definition validate_brightness (brightness : float) : bool :=
  if SFltb brightness f0_0 || SFltb f1_0 brightness then false
  else true.

Definition colors : list Rgb :=
  [ (255, 100, 0);    (* Amber *)
    (50, 255, 255);   (* Aqua *)
    (255, 255, 255);  (* White *)
    (0, 0, 255);      (* Blue *)
    (0, 255, 255);    (* Cyan *)
    (255, 222, 30);   (* Gold *)
    (0, 255, 0);      (* Green *)
    (0, 255, 40);     (* Jade *)
    (255, 0, 20);     (* Magenta *)
    (253, 245, 230);  (* Old Lace *)
    (255, 40, 0);     (* Orange *)
    (242, 90, 255);   (* Pink *)
    (180, 0, 255) ].  (* Purple *)

(** [random.choice(seq)]: [seq[randbelow(len(seq))]], [IndexError] on an
    empty sequence.  [draw] is the outcome of the generator; [randbelow n]
    returns a number below [n], and every such number is [draw mod n] for
    some [draw]. *)
Definition choice {A} (draw : nat) (seq : list A) : Result A :=
  match seq !! (draw mod length seq)%nat with
  | Some x => Ok x
  | None => Raise IndexError
  end.

Definition suggest_rgb (draw : nat) (current : Rgb) : Result Rgb :=
  choice draw (filter (fun color => color <> current) colors).

Definition rgb_encode (rgb : Rgb) : Z :=
  let '(red, green, blue) := rgb in
  let encoded_rgb := red in
  let encoded_rgb := Z.shiftl encoded_rgb 8 + green in
  let encoded_rgb := Z.shiftl encoded_rgb 8 + blue in
  encoded_rgb.

Definition rgb_decode (encoded_rgb : Z) : Rgb :=
  let red := Z.land (Z.shiftr encoded_rgb 16) 255 in
  let green := Z.land (Z.shiftr encoded_rgb 8) 255 in
  let blue := Z.land encoded_rgb 255 in
  (red, green, blue).

(** *** class Console *)

Module Console.

Record t : Type := mk {
  rgb : Rgb;
  brightness : float;
  state : bool
}.

(** Attribute reads and writes on [self]. *)
Definition self_rgb : M (t * World) Rgb :=
  fun '(self, w) => (Ok (rgb self), (self, w)).
Definition self_brightness : M (t * World) float :=
  fun '(self, w) => (Ok (brightness self), (self, w)).
Definition self_state : M (t * World) bool :=
  fun '(self, w) => (Ok (state self), (self, w)).
Definition assign_rgb (v : Rgb) : M (t * World) unit :=
  modify (fun '(self, w) => (mk v (brightness self) (state self), w)).
Definition assign_brightness (v : float) : M (t * World) unit :=
  modify (fun '(self, w) => (mk (rgb self) v (state self), w)).
Definition assign_state (v : bool) : M (t * World) unit :=
  modify (fun '(self, w) => (mk (rgb self) (brightness self) v, w)).

(** The constructor: an exception leaves no object behind, so the object
    is returned only when both validations pass. *)
Definition __init__ (rgb : Rgb) (brightness : float) (state : bool)
  : M World t :=
  (if negb (validate_color rgb)
   then raise (Exception "Each color must be in range 0:255")
   else
     if negb (validate_brightness brightness)
     then raise (Exception "Brightness must but in range 0.0:1.0")
     else
       print (CreatedConsoleLamp rgb brightness) ;;
       (if state then print LampIsCurrentlyOn
        else print LampIsCurrentlyOff) ;;
       ret (mk rgb brightness state))%py.

Definition set_color (rgb : Rgb) : M (t * World) unit :=
  (if negb (validate_color rgb)
   then raise (Exception "Each color must be in range 0:255")
   else
     assign_rgb rgb ;;
     c <- self_rgb ;;
     print (ColorNowSetTo c) ;;
     ret tt)%py.

Definition get_color : M (t * World) Rgb :=
  (c <- self_rgb ;;
   print (CurrentColor c) ;;
   self_rgb)%py.

Definition set_brightness (brightness : float) : M (t * World) unit :=
  (if negb (validate_brightness brightness)
   then raise (Exception "Brightness must but in range 0.0:1.0")
   else
     assign_brightness brightness ;;
     b <- self_brightness ;;
     print (BrightnessNow b) ;;
     ret tt)%py.

Definition get_brightness : M (t * World) float :=
  (b <- self_brightness ;;
   print (CurrentBrightness b) ;;
   self_brightness)%py.

Definition set_state (state : bool) : M (t * World) unit :=
  (assign_state state ;;
   on <- self_state ;;
   (if on then print LampIsCurrentlyOn else print LampIsCurrentlyOff) ;;
   ret tt)%py.

Definition get_state : M (t * World) bool :=
  (on <- self_state ;;
   (if on then print LampIsCurrentlyOn else print LampIsCurrentlyOff) ;;
   self_state)%py.

(** The truth value of a bound method object such as [self.get_state]
    (the method is named, not called): a method object has neither
    [__bool__] nor [__len__], so it is true whatever the method would
    return. *)
Definition bool_of_method {A} (method : M (t * World) A) : bool := true.

Definition flash (n_flashes : Z) : M (t * World) unit :=
  (print (NowFlashing n_flashes) ;;
   (if negb (bool_of_method get_state) then set_state true else ret tt) ;;
   for_each (range n_flashes) (fun i =>
     print (Flash i) ;;
     set_state false ;;
     set_state true) ;;
   print DoneFlashing ;;
   ret tt)%py.

Definition pulsate (n_pulsations n_seconds : Z) : M (t * World) unit :=
  (print (StartingPulsations n_pulsations n_seconds) ;;
   for_each (range n_pulsations) (fun i =>
     print (PulsationStart i) ;;
     sleep n_seconds ;;
     print (PulsationFinish i)) ;;
   print FinishedPulsations ;;
   ret tt)%py.

(** The public operations of a lamp, and a client that goes on after an
    exception: the object keeps whatever the failed call left in it. *)
Inductive Op : Type :=
| SetColor (rgb : Rgb)
| GetColor
| SetBrightness (brightness : float)
| GetBrightness
| SetState (state : bool)
| GetState
| DoFlash (n_flashes : Z)
| DoPulsate (n_pulsations n_seconds : Z).

Definition call (op : Op) (s : t * World) : t * World :=
  match op with
  | SetColor rgb => snd (set_color rgb s)
  | GetColor => snd (get_color s)
  | SetBrightness brightness => snd (set_brightness brightness s)
  | GetBrightness => snd (get_brightness s)
  | SetState state => snd (set_state state s)
  | GetState => snd (get_state s)
  | DoFlash n_flashes => snd (flash n_flashes s)
  | DoPulsate n_pulsations n_seconds => snd (pulsate n_pulsations n_seconds s)
  end.

Definition calls (ops : list Op) (s : t * World) : t * World :=
  fold_left (fun s op => call op s) ops s.

(** The states a lamp can be in: built by the constructor, then used
    through its public operations. *)
Definition reachable (s : t * World) : Prop :=
  exists rgb brightness state w0 self w1 ops,
    __init__ rgb brightness state w0 = (Ok self, w1) /\
    s = calls ops (self, w1).

End Console.

End lamp.

(** ** switch.py *)

Module switch.

(** The [gpiozero.Button] bound to a pin; the switch never reads it. *)
Record Button : Type := mkButton { button_pin : Z }.

Record CherrySwitch : Type := mkCherrySwitch {
  pin : Z;
  _state : bool;
  _previous_state : bool;
  _can_change : bool;
  _button : Button
}.

Definition __init__ (pin : Z) : CherrySwitch :=
  {| pin := pin;
     _state := false;
     _previous_state := true;  (* So that we trigger a change the first time *)
     _can_change := true;
     _button := mkButton pin |}.

Definition change_permitted : M CherrySwitch bool := ret true.

Definition change_state : M CherrySwitch unit :=
  (permitted <- change_permitted ;;
   (if permitted
    then modify (fun self =>
           mkCherrySwitch (pin self) (negb (_state self)) (_state self)
                          (_can_change self) (_button self))
    else ret tt) ;;
   ret tt)%py.

Definition state_changed : M CherrySwitch bool :=
  (self <- get ;;
   ret (Bool.eqb (_state self) (_previous_state self)))%py.

Inductive Op : Type :=
| ChangeState
| StateChanged
| ChangePermitted.

Definition call (op : Op) (self : CherrySwitch) : CherrySwitch :=
  match op with
  | ChangeState => snd (change_state self)
  | StateChanged => snd (state_changed self)
  | ChangePermitted => snd (change_permitted self)
  end.

Definition calls (ops : list Op) (self : CherrySwitch) : CherrySwitch :=
  fold_left (fun self op => call op self) ops self.

End switch.

(** ** client.py *)

Module client.

Import lamp.

(** [x[0]] on a parsed JSON value. *)
Definition getitem_0 (x : Json) : Result Json :=
  match x with
  | JList (first :: _) => Ok first
  | JList [] => Raise IndexError
  | JStr (String c _) => Ok (JStr (String c EmptyString))
  | JStr EmptyString => Raise IndexError
  | JDict _ => Raise (KeyError "0")
  | _ => Raise TypeError
  end.

Fixpoint dict_get (items : list (string * Json)) (key : string)
  : option Json :=
  match items with
  | [] => None
  | (k, v) :: rest => if String.eqb k key then Some v else dict_get rest key
  end.

(** [x[key]] for a string [key]: only a dict is subscripted by a string. *)
Definition getitem (x : Json) (key : string) : Result Json :=
  match x with
  | JDict items =>
      match dict_get items key with
      | Some v => Ok v
      | None => Raise (KeyError key)
      end
  | _ => Raise TypeError
  end.

(** [int(f)] on a float truncates toward zero. *)
Definition int_of_float (f : float) : Result Z :=
  match f with
  | S754_zero _ => Ok 0
  | S754_infinity _ => Raise OverflowError
  | S754_nan => Raise ValueError
  | S754_finite s m e =>
      let a := if 0 <=? e then Z.pos m * 2 ^ e else Z.pos m / 2 ^ (- e) in
      Ok (if s then - a else a)
  end.

Section Client.

(** The table of [secrets.py], which is not part of the repository. *)
Variable secrets : gmap string string.

(** The builtin [int] on a string: the integer it denotes, when it denotes
    one ([ValueError] otherwise). *)
Variable int_of_str : string -> option Z.

Definition int (x : Json) : Result Z :=
  match x with
  | JInt z => Ok z
  | JBool b => Ok (if b then 1 else 0)
  | JFloat f => int_of_float f
  | JStr s =>
      match int_of_str s with
      | Some z => Ok z
      | None => Raise ValueError
      end
  | _ => Raise TypeError
  end.

Definition secrets_getitem {S} (key : string) : M S string :=
  match secrets !! key with
  | Some v => ret v
  | None => raise (KeyError key)
  end.

Definition aio_api {S} : M S string := secrets_getitem "aio_api".

Definition aio_key {S} : M S string := secrets_getitem "aio_key".

Definition construct_call {S} (value : option Any)
  : M S (gmap string Any) :=
  (key <- aio_key ;;
   let data : gmap string Any := {[ "X-AIO-Key" := AStr key ]} in
   let data :=
     match value with
     | Some v => <[ "value" := v ]> data
     | None => data
     end in
   ret data)%py.

Definition check_color : M (Console.t * World) unit :=
  (url <- aio_api ;;
   data <- construct_call None ;;
   api_response <- http (GET url data) ;;
   first <- lift (getitem_0 api_response) ;;
   current_color <- lift (getitem first "value") ;;
   encoded <- lift (int current_color) ;;
   let current_color := rgb_decode encoded in
   lamp_color <- Console.get_color ;;
   (if decide (current_color <> lamp_color)
    then Console.set_color current_color
    else ret tt) ;;
   ret tt)%py.

Definition trigger_color_change (draw : nat) : M (Console.t * World) unit :=
  (current <- Console.get_color ;;
   new_color <- lift (suggest_rgb draw current) ;;
   Console.set_color new_color ;;
   post_data <- construct_call (Some (AInt (rgb_encode new_color))) ;;
   url <- aio_api ;;
   api_response <- http (POST url post_data) ;;
   print (NewColor new_color api_response) ;;
   ret tt)%py.

End Client.

(** A reading of decimal numerals, [-] sign allowed: one instance of the
    builtin [int] on strings. *)
Definition digit_of (c : Ascii.ascii) : option Z :=
  let n := Z.of_nat (Ascii.nat_of_ascii c) in
  if (48 <=? n) && (n <=? 57) then Some (n - 48) else None.

Fixpoint digits (acc : Z) (s : string) : option Z :=
  match s with
  | EmptyString => Some acc
  | String c rest =>
      match digit_of c with
      | Some d => digits (10 * acc + d) rest
      | None => None
      end
  end.

Definition decimal (s : string) : option Z :=
  match s with
  | EmptyString => None
  | String "-"%char EmptyString => None
  | String "-"%char rest => Z.opp <$> digits 0 rest
  | _ => digits 0 s
  end.

(** A secrets table with both entries. *)
Definition demo_secrets : gmap string string :=
  {[ "aio_api" := "https://io.adafruit.com/api/v2/user/feeds/lamp/data";
     "aio_key" := "aio_demo" ]}.

End client.

(** ** Predicates of the specification *)

(** A color whose three channels are each in [0, 255]. *)
Definition valid_rgb (c : Rgb) : Prop :=
  let '(red, green, blue) := c in
  0 <= red <= 255 /\ 0 <= green <= 255 /\ 0 <= blue <= 255.

(** A brightness in the closed interval [0.0, 1.0]. *)
Definition in_unit_interval (b : float) : bool :=
  SFleb f0_0 b && SFleb b f1_0.

(** The float that is not a number. *)
Definition is_nan (b : float) : bool :=
  match b with
  | S754_nan => true
  | _ => false
  end.

Import lamp.

(** Unfolding of the monad and of the attribute accesses. *)
Ltac run :=
  unfold Console.set_color, Console.get_color, Console.set_brightness,
    Console.get_brightness, Console.set_state, Console.get_state,
    Console.self_rgb, Console.self_brightness, Console.self_state,
    Console.assign_rgb, Console.assign_brightness, Console.assign_state,
    print, sleep, lift, bind, ret, raise, modify, get, put;
  cbn [world with_world Env_object Env_World fst snd
       Console.rgb Console.brightness Console.state
       stdout slept sent inbox].

(** What stays of the environment when only [print] runs. *)
Definition same_io (w w' : World) : Prop :=
  slept w' = slept w /\ sent w' = sent w /\ inbox w' = inbox w.


(** ** Concrete inputs *)

(** A process that printed nothing yet, with an unreachable remote. *)
Definition quiet : World := mkWorld [] [] [] [].

(** [Console((0, 0, 0), 1.0, state)] *)
Definition black (state : bool) : Console.t := Console.mk (0, 0, 0) f1_0 state.

(** The final lamp of a run. *)
Definition lamp_after {A} (run : Result A * (Console.t * World)) : Console.t :=
  fst (snd run).

(** The invariant of the stored snapshot that the validations maintain. *)
Definition validated (self : Console.t) : Prop :=
  valid_rgb (Console.rgb self) /\
  validate_brightness (Console.brightness self) = true.

(** [Console()] in a quiet process, then [set_brightness(float('nan'))]. *)
Definition nan_lamp : Console.t * World :=
  Console.calls [Console.SetBrightness S754_nan]
    (black true,
     mkWorld [CreatedConsoleLamp (0, 0, 0) f1_0; LampIsCurrentlyOn] [] [] []).

(** [Console((255, 255, 255))] *)
Definition white : Console.t := Console.mk (255, 255, 255) f1_0 true.

(** A process whose remote store answers the next request with one record
    holding the encoding of (0, 0, 255). *)
Definition remote_blue : World :=
  mkWorld [] [] [] [Ok (JList [JDict [("value", JStr "255")]])].

(** The line [set_state] and [get_state] print. *)
Definition state_line (on : bool) : Line :=
  if on then LampIsCurrentlyOn else LampIsCurrentlyOff.




(** [Console()] in a quiet process. *)
Definition built : Console.t * World :=
  (black true,
   mkWorld [CreatedConsoleLamp (0, 0, 0) f1_0; LampIsCurrentlyOn] [] [] []).

(** How many [change_state] calls a sequence of switch calls makes. *)
Fixpoint changes (ops : list switch.Op) : nat :=
  match ops with
  | [] => 0%nat
  | switch.ChangeState :: rest => S (changes rest)
  | _ :: rest => changes rest
  end.

(** The encoded color read off one outcome of the remote store:
    [int(outcome[0]['value'])]. *)
Definition remote_value (int_of_str : string -> option Z)
  (outcome : Result Json) : Result Z :=
  match outcome with
  | Raise e => Raise e
  | Ok api_response =>
      match client.getitem_0 api_response with
      | Raise e => Raise e
      | Ok first =>
          match client.getitem first "value" with
          | Raise e => Raise e
          | Ok current_color => client.int int_of_str current_color
          end
      end
  end.

(** * Properties *)

(** ** The color codec *)

Lemma validate_color_spec (c : Rgb) :
  lamp.validate_color c = true <-> valid_rgb c.
Proof.
  destruct c as [[red green] blue]. unfold lamp.validate_color, valid_rgb.
  cbn [lamp.validate_color_loop].
  destruct (red <? 0) eqn:R0; destruct (red >? 255) eqn:R1;
  destruct (green <? 0) eqn:G0; destruct (green >? 255) eqn:G1;
  destruct (blue <? 0) eqn:B0; destruct (blue >? 255) eqn:B1;
  cbn [orb]; rewrite ?Z.gtb_ltb in *;
  rewrite ?Z.ltb_lt, ?Z.ltb_ge in *; split; intros; (lia || discriminate).
Qed.

Lemma rgb_decode_arith (v : Z) :
  lamp.rgb_decode v = ((v / 65536) mod 256, (v / 256) mod 256, v mod 256).
Proof.
  unfold lamp.rgb_decode. change 255 with (Z.ones 8).
  rewrite !Z.land_ones, !Z.shiftr_div_pow2 by lia. reflexivity.
Qed.

Lemma rgb_encode_arith (red green blue : Z) :
  lamp.rgb_encode (red, green, blue) = (red * 256 + green) * 256 + blue.
Proof.
  unfold lamp.rgb_encode. rewrite !Z.shiftl_mul_pow2 by lia. reflexivity.
Qed.

(** Whatever integer it is given, [rgb_decode] returns valid channels. *)
Lemma rgb_decode_valid (v : Z) : valid_rgb (lamp.rgb_decode v).
Proof.
  rewrite rgb_decode_arith. unfold valid_rgb.
  pose proof (Z.mod_pos_bound (v / 65536) 256).
  pose proof (Z.mod_pos_bound (v / 256) 256).
  pose proof (Z.mod_pos_bound v 256). lia.
Qed.

(** C1: for every color whose channels are in [0, 255], decoding its
    encoding gives the color back; the encoding is a 24-bit integer, and
    every 24-bit integer is the encoding of the valid color it decodes to,
    so the pair is a bijection between valid colors and 24-bit integers. *)
Theorem rgb_decode_encode_bijection (c : Rgb) (v : Z)
  (Hc : valid_rgb c) (Hv : 0 <= v < 2 ^ 24) :
  lamp.rgb_decode (lamp.rgb_encode c) = c /\
  0 <= lamp.rgb_encode c < 2 ^ 24 /\
  valid_rgb (lamp.rgb_decode v) /\
  lamp.rgb_encode (lamp.rgb_decode v) = v.
Proof.
  destruct c as [[red green] blue]. unfold valid_rgb in Hc.
  rewrite rgb_encode_arith.
  split; [| split; [| split]].
  - rewrite rgb_decode_arith. repeat f_equal.
    all: Z.div_mod_to_equations; lia.
  - lia.
  - apply rgb_decode_valid.
  - rewrite rgb_decode_arith, rgb_encode_arith.
    Z.div_mod_to_equations. lia.
Qed.

Lemma rgb_decode_encode_bijection_witness :
  valid_rgb (1, 2, 3) /\
  0 <= 255 < 2 ^ 24 /\
  lamp.rgb_decode (lamp.rgb_encode (1, 2, 3)) = (1, 2, 3) /\
  0 <= lamp.rgb_encode (1, 2, 3) < 2 ^ 24 /\
  valid_rgb (lamp.rgb_decode 255) /\
  lamp.rgb_encode (lamp.rgb_decode 255) = 255.
Proof.
  assert (Hc : valid_rgb (1, 2, 3)) by (unfold valid_rgb; lia).
  assert (Hv : 0 <= 255 < 2 ^ 24) by lia.
  split; [exact Hc |]. split; [exact Hv |].
  exact (rgb_decode_encode_bijection (1, 2, 3) 255 Hc Hv).
Defined.

(** C9: for every nonnegative integer, [rgb_decode] returns a color (it
    has no failing path), the bits above bit 23 do not matter, and each
    channel of the result is in [0, 255]. *)
Theorem rgb_decode_masks_high_bits (v : Z) (Hv : 0 <= v) :
  (exists red green blue, lamp.rgb_decode v = (red, green, blue)) /\
  lamp.rgb_decode v = lamp.rgb_decode (v mod 2 ^ 24) /\
  valid_rgb (lamp.rgb_decode v).
Proof.
  split; [| split].
  - rewrite rgb_decode_arith. eauto.
  - rewrite !rgb_decode_arith. change (2 ^ 24) with 16777216.
    assert (E : v mod 16777216 = v + - (v / 16777216) * 16777216)
      by (Z.div_mod_to_equations; lia).
    rewrite E. set (k := - (v / 16777216)).
    f_equal; [f_equal |].
    + replace (v + k * 16777216) with (v + k * 256 * 65536) by lia.
      rewrite Z.div_add, Z.mod_add by lia. reflexivity.
    + replace (v + k * 16777216) with (v + k * 65536 * 256) by lia.
      rewrite Z.div_add by lia.
      replace (v / 256 + k * 65536) with (v / 256 + k * 256 * 256) by lia.
      rewrite Z.mod_add by lia. reflexivity.
    + replace (v + k * 16777216) with (v + k * 65536 * 256) by lia.
      rewrite Z.mod_add by lia. reflexivity.
  - apply rgb_decode_valid.
Qed.

Lemma rgb_decode_masks_high_bits_witness :
  0 <= 16777471 /\
  (exists red green blue,
     lamp.rgb_decode 16777471 = (red, green, blue)) /\
  lamp.rgb_decode 16777471 = lamp.rgb_decode (16777471 mod 2 ^ 24) /\
  valid_rgb (lamp.rgb_decode 16777471).
Proof.
  assert (Hv : 0 <= 16777471) by lia.
  split; [exact Hv |].
  exact (rgb_decode_masks_high_bits 16777471 Hv).
Defined.

(** ** The palette *)

Lemma choice_Ok {A} (draw : nat) (seq : list A) :
  seq <> [] -> exists x, lamp.choice draw seq = Ok x /\ In x seq.
Proof.
  intros Hne. unfold lamp.choice.
  assert (Hlt : (draw mod length seq < length seq)%nat).
  { apply Nat.mod_upper_bound. destruct seq; [congruence | discriminate]. }
  destruct (lookup_lt_is_Some_2 _ _ Hlt) as [x Hx].
  exists x. rewrite Hx. split; [reflexivity |].
  apply list_elem_of_In. eapply list_elem_of_lookup_2. exact Hx.
Qed.

(** Every member of the sequence is the outcome of some draw. *)
Lemma choice_any {A} (seq : list A) (x : A) :
  In x seq -> exists draw, lamp.choice draw seq = Ok x.
Proof.
  intros Hin. apply list_elem_of_In, list_elem_of_lookup_1 in Hin.
  destruct Hin as [i Hi]. exists i. unfold lamp.choice.
  rewrite Nat.mod_small by (eapply lookup_lt_Some; exact Hi).
  rewrite Hi. reflexivity.
Qed.

(** Twelve entries at least are left after the filter: Amber and Aqua
    differ, so one of them is. *)
Lemma candidates_nonempty (current : Rgb) :
  filter (fun color => color <> current) lamp.colors <> [].
Proof.
  intros Hnil.
  assert (Hin : forall color, color ∈ lamp.colors -> color <> current ->
                              False).
  { intros color Hc Hne.
    assert (H : color ∈ filter (fun color => color <> current) lamp.colors)
      by (apply list_elem_of_filter; split; assumption).
    rewrite Hnil in H. inversion H. }
  destruct (decide ((255, 100, 0) = current)) as [<- | Hne].
  - apply (Hin (50, 255, 255)); [| discriminate].
    unfold lamp.colors. do 1 apply list_elem_of_further. apply list_elem_of_here.
  - apply (Hin (255, 100, 0)); [| exact Hne].
    unfold lamp.colors. apply list_elem_of_here.
Qed.

(** The draw is made among palette entries that differ from the current
    color, and there is always one to draw. *)
Lemma suggest_rgb_Ok (draw : nat) (current : Rgb) :
  exists color,
    lamp.suggest_rgb draw current = Ok color /\
    In color lamp.colors /\
    color <> current.
Proof.
  destruct (choice_Ok draw _ (candidates_nonempty current))
    as (color & Hc & Hin).
  exists color. split; [exact Hc |].
  apply list_elem_of_In, list_elem_of_filter in Hin. destruct Hin as [Hne Hin].
  split; [apply list_elem_of_In; exact Hin | exact Hne].
Qed.

(** Every palette entry that differs from the current color is the outcome
    of some draw. *)
Lemma suggest_rgb_any (current color : Rgb) :
  In color lamp.colors -> color <> current ->
  exists draw, lamp.suggest_rgb draw current = Ok color.
Proof.
  intros Hin Hne. apply choice_any, list_elem_of_In, list_elem_of_filter.
  split; [exact Hne | apply list_elem_of_In; exact Hin].
Qed.

Lemma colors_valid (color : Rgb) :
  In color lamp.colors -> lamp.validate_color color = true.
Proof.
  intros Hin.
  assert (H : forallb lamp.validate_color lamp.colors = true) by reflexivity.
  rewrite forallb_forall in H. apply H, Hin.
Qed.

(** C7: whatever the current color and whatever the random draw,
    [suggest_rgb] returns an entry of the thirteen-entry palette, and the
    entry differs from the current color: a palette member equal to it is
    filtered out by value. *)
Theorem suggest_rgb_palette_not_current (draw : nat) (current : Rgb) :
  length lamp.colors = 13%nat /\
  exists color,
    lamp.suggest_rgb draw current = Ok color /\
    In color lamp.colors /\
    color <> current.
Proof.
  split; [reflexivity | apply suggest_rgb_Ok].
Qed.

(** ** The Console lamp *)

Lemma same_io_refl w : same_io w w.
Proof. repeat split. Qed.

Lemma same_io_trans w1 w2 w3 : same_io w1 w2 -> same_io w2 w3 -> same_io w1 w3.
Proof. unfold same_io. intuition congruence. Qed.

Lemma set_state_run (on : bool) (self : Console.t) (w : World) :
  Console.set_state on (self, w) =
  (Ok tt,
   (Console.mk (Console.rgb self) (Console.brightness self) on,
    mkWorld (stdout w ++ [if on then LampIsCurrentlyOn else LampIsCurrentlyOff])
            (slept w) (sent w) (inbox w))).
Proof. run. destruct on; reflexivity. Qed.

(** The loop of [flash]: no iteration leaves the lamp as it is, and one or
    more leave it on. *)
Lemma flash_loop_run (xs : list Z) (self : Console.t) (w : World) :
  exists w',
    for_each xs (fun i =>
      (print (Flash i) ;;
       Console.set_state false ;;
       Console.set_state true)%py) (self, w) =
    (Ok tt,
     (match xs with
      | [] => self
      | _ => Console.mk (Console.rgb self) (Console.brightness self) true
      end, w')) /\
    same_io w w'.
Proof.
  revert self w. induction xs as [| i rest IH]; intros self w.
  - exists w. split; [reflexivity | apply same_io_refl].
  - cbn [for_each]. unfold bind at 1 2 3. unfold print at 1. unfold modify.
    cbn [world with_world Env_object fst snd].
    rewrite !set_state_run. cbn [Console.rgb Console.brightness].
    match goal with
    | |- context [for_each rest _ (?s, ?w1)] =>
        destruct (IH s w1) as (w' & Hrun & Hio)
    end.
    exists w'. rewrite Hrun. split.
    + destruct rest; reflexivity.
    + destruct Hio as (? & ? & ?). repeat split; assumption.
Qed.

Lemma range_nil (n : Z) : n <= 0 -> range n = [].
Proof.
  intros H. unfold range. replace (Z.to_nat n) with 0%nat by lia. reflexivity.
Qed.

Lemma range_cons (n : Z) : 0 < n -> exists rest, range n = 0 :: rest.
Proof.
  intros H. unfold range. destruct (Z.to_nat n) eqn:E; [lia |].
  eexists. reflexivity.
Qed.

(** [flash] never raises; it leaves the lamp untouched when there is no
    iteration and on otherwise. *)
Lemma flash_run (n_flashes : Z) (self : Console.t) (w : World) :
  exists w',
    Console.flash n_flashes (self, w) =
    (Ok tt,
     (if 0 <? n_flashes
      then Console.mk (Console.rgb self) (Console.brightness self) true
      else self, w')) /\
    same_io w w'.
Proof.
  unfold Console.flash. unfold Console.bool_of_method. cbn [negb].
  unfold bind at 1 2. unfold print at 1. unfold modify, ret at 1.
  cbn [world with_world Env_object fst snd].
  unfold bind at 1.
  match goal with
  | |- context [for_each ?xs _ (?s, ?w1)] =>
      destruct (flash_loop_run xs s w1) as (w' & Hrun & Hio)
  end.
  rewrite Hrun. run.
  eexists. split.
  - f_equal. f_equal.
    destruct (0 <? n_flashes) eqn:E.
    + apply Z.ltb_lt in E. destruct (range_cons _ E) as [rest ->]. reflexivity.
    + apply Z.ltb_ge in E. rewrite range_nil by exact E. reflexivity.
  - destruct Hio as (? & ? & ?). repeat split; assumption.
Qed.


(** C2: [flash(0)] on a lamp that is off returns with the lamp still off.
    The guard [not self.get_state] looks at the method object, which is
    always true, and not at what the method returns, so the lamp is not
    turned on before the loop, and with no flash the loop does not turn it
    on either. *)
Theorem flash_0_from_off_stays_off :
  negb (Console.bool_of_method Console.get_state) = false /\
  fst (Console.flash 0 (black false, quiet)) = Ok tt /\
  Console.state (lamp_after (Console.flash 0 (black false, quiet))) = false.
Proof. repeat split. Qed.

(** *** Brightness: the IEEE comparisons *)

Lemma SFcompare_antisym (x y : float) :
  SFcompare y x = CompOpp <$> SFcompare x y.
Proof.
  destruct x as [sx | sx | | sx mx ex], y as [sy | sy | | sy my ey];
    try destruct sx; try destruct sy; try reflexivity.
  all: cbn [SFcompare fmap option_fmap option_map]; f_equal.
  all: rewrite (Z.compare_antisym ex ey); destruct (ex ?= ey); cbn [CompOpp];
    try reflexivity.
  all: rewrite (Pos.compare_cont_antisym mx my Eq); reflexivity.
Qed.

(** [validate_brightness] accepts the closed interval, and NaN, which
    compares neither below 0.0 nor above 1.0. *)
Lemma validate_brightness_spec (b : float) :
  validate_brightness b = in_unit_interval b || is_nan b.
Proof.
  unfold validate_brightness, in_unit_interval, SFltb, SFleb.
  rewrite (SFcompare_antisym b f0_0), (SFcompare_antisym f1_0 b).
  destruct b as [s | s | | s m e]; try destruct s; try reflexivity.
  destruct (SFcompare f1_0 (S754_finite false m e)) as [[| |] |] eqn:E;
    try reflexivity.
  unfold f1_0 in E. cbn [SFcompare] in E. discriminate E.
Qed.

(** *** The mutators *)

Lemma set_color_run (rgb : Rgb) (self : Console.t) (w : World) :
  Console.set_color rgb (self, w) =
  if validate_color rgb
  then (Ok tt,
        (Console.mk rgb (Console.brightness self) (Console.state self),
         mkWorld (stdout w ++ [ColorNowSetTo rgb]) (slept w) (sent w)
                 (inbox w)))
  else (Raise (Exception "Each color must be in range 0:255"), (self, w)).
Proof. run. destruct (validate_color rgb); reflexivity. Qed.

Lemma set_brightness_run (brightness : float) (self : Console.t) (w : World) :
  Console.set_brightness brightness (self, w) =
  if validate_brightness brightness
  then (Ok tt,
        (Console.mk (Console.rgb self) brightness (Console.state self),
         mkWorld (stdout w ++ [BrightnessNow brightness]) (slept w) (sent w)
                 (inbox w)))
  else (Raise (Exception "Brightness must but in range 0.0:1.0"), (self, w)).
Proof. run. destruct (validate_brightness brightness); reflexivity. Qed.

Lemma get_color_run (self : Console.t) (w : World) :
  Console.get_color (self, w) =
  (Ok (Console.rgb self),
   (self, mkWorld (stdout w ++ [CurrentColor (Console.rgb self)]) (slept w)
                  (sent w) (inbox w))).
Proof. reflexivity. Qed.

(** [set_color] raises exactly on a color with a channel out of [0, 255],
    and a call that raises leaves the lamp and the environment as they
    were. *)
Lemma set_color_raises (rgb : Rgb) (self : Console.t) (w : World) :
  ((exists e, fst (Console.set_color rgb (self, w)) = Raise e) <->
   ~ valid_rgb rgb) /\
  ((exists e, fst (Console.set_color rgb (self, w)) = Raise e) ->
   snd (Console.set_color rgb (self, w)) = (self, w)).
Proof.
  rewrite set_color_run. pose proof (validate_color_spec rgb) as Hspec.
  destruct (validate_color rgb); cbn [fst snd].
  - split; [split |].
    + intros [e He]. discriminate He.
    + intros Hn. exfalso. apply Hn, Hspec. reflexivity.
    + intros [e He]. discriminate He.
  - split; [split |].
    + intros _ Hv. apply Hspec in Hv. discriminate Hv.
    + intros _. eauto.
    + reflexivity.
Qed.

(** [set_brightness] raises exactly on a number below 0.0 or above 1.0:
    NaN is outside the interval and is not refused.  A call that raises
    leaves the lamp and the environment as they were. *)
Lemma set_brightness_raises (brightness : float) (self : Console.t)
  (w : World) :
  ((exists e, fst (Console.set_brightness brightness (self, w)) = Raise e) <->
   in_unit_interval brightness = false /\ is_nan brightness = false) /\
  ((exists e, fst (Console.set_brightness brightness (self, w)) = Raise e) ->
   snd (Console.set_brightness brightness (self, w)) = (self, w)).
Proof.
  rewrite set_brightness_run, validate_brightness_spec.
  destruct (in_unit_interval brightness), (is_nan brightness);
    cbn [orb fst snd]; (split; [split |]);
    try (intros [e He]; discriminate He);
    try (intros [? ?]; discriminate); eauto.
Qed.

Lemma pulsation_lamp (n_seconds i : Z) (self : Console.t) (w : World) :
  exists r w',
    (print (PulsationStart i) ;;
     sleep n_seconds ;;
     print (PulsationFinish i))%py (self, w) = (r, (self, w')).
Proof. run. destruct (n_seconds <? 0); eexists _, _; reflexivity. Qed.

(** The loop of [pulsate] only prints and sleeps: the lamp is as it was,
    whether a [sleep] raised or not. *)
Lemma pulsate_loop_lamp (n_seconds : Z) (xs : list Z) (self : Console.t)
  (w : World) :
  exists r w',
    for_each xs (fun i =>
      (print (PulsationStart i) ;;
       sleep n_seconds ;;
       print (PulsationFinish i))%py) (self, w) = (r, (self, w')).
Proof.
  revert w. induction xs as [| i rest IH]; intros w.
  - eexists _, _. reflexivity.
  - cbn [for_each]. unfold bind at 1.
    destruct (pulsation_lamp n_seconds i self w) as (r & w1 & ->).
    destruct r as [[] | e].
    + apply IH.
    + eexists _, _. reflexivity.
Qed.

Lemma pulsate_lamp (n_pulsations n_seconds : Z) (self : Console.t)
  (w : World) :
  fst (snd (Console.pulsate n_pulsations n_seconds (self, w))) = self.
Proof.
  unfold Console.pulsate. unfold bind at 1 2. unfold print at 1, modify.
  cbn [world with_world Env_object fst snd].
  match goal with
  | |- context [for_each ?xs _ (?s, ?w1)] =>
      destruct (pulsate_loop_lamp n_seconds xs s w1) as (r & w' & Hrun)
  end.
  rewrite Hrun. destruct r; reflexivity.
Qed.

(** Every public operation keeps a validated snapshot validated. *)
Lemma call_validated (op : Console.Op) (s : Console.t * World) :
  validated (fst s) -> validated (fst (Console.call op s)).
Proof.
  destruct s as [self w]. intros [Hc Hb]. cbn [fst] in *.
  destruct op as [rgb | | brightness | | state | | n | n secs];
    cbn [Console.call].
  - rewrite set_color_run. destruct (validate_color rgb) eqn:E.
    + split; [apply validate_color_spec; exact E | exact Hb].
    + split; assumption.
  - split; assumption.
  - rewrite set_brightness_run. destruct (validate_brightness brightness) eqn:E.
    + split; [exact Hc | exact E].
    + split; assumption.
  - split; assumption.
  - rewrite set_state_run. split; assumption.
  - destruct (Console.state self) eqn:E; run; rewrite E; split; assumption.
  - destruct (flash_run n self w) as (w' & -> & _). cbn [fst snd].
    destruct (0 <? n); split; assumption.
  - rewrite pulsate_lamp. split; assumption.
Qed.

Lemma __init___validated (rgb : Rgb) (brightness : float) (state : bool)
  (w0 w1 : World) (self : Console.t) :
  Console.__init__ rgb brightness state w0 = (Ok self, w1) ->
  validated self.
Proof.
  unfold Console.__init__.
  destruct (validate_color rgb) eqn:Ec; cbn [negb]; [| discriminate].
  destruct (validate_brightness brightness) eqn:Eb; cbn [negb];
    [| discriminate].
  destruct state; intros H; injection H as <- _;
    (split; [apply validate_color_spec; exact Ec | exact Eb]).
Qed.

(** X28: in every reachable state the stored channels are in [0, 255], and
    the stored brightness is in [0.0, 1.0] or is NaN. *)
Lemma reachable_validated (s : Console.t * World) :
  Console.reachable s ->
  valid_rgb (Console.rgb (fst s)) /\
  in_unit_interval (Console.brightness (fst s))
    || is_nan (Console.brightness (fst s)) = true.
Proof.
  intros (rgb & brightness & state & w0 & self & w1 & ops & Hinit & ->).
  rewrite <- validate_brightness_spec.
  change (validated (fst (Console.calls ops (self, w1)))).
  apply __init___validated in Hinit.
  change self with (fst (self, w1)) in Hinit.
  generalize dependent (self, w1). clear.
  induction ops as [| op ops IH]; intros s Hs.
  - exact Hs.
  - cbn [Console.calls fold_left]. apply IH, call_validated, Hs.
Qed.

(** C3: [set_brightness] does not raise on NaN, a float outside
    [0.0, 1.0]: both comparisons of [validate_brightness] are false on it,
    so the call returns and NaN is stored as the brightness. *)
Theorem set_brightness_nan_not_refused (self : Console.t) (w : World) :
  in_unit_interval S754_nan = false /\
  validate_brightness S754_nan = true /\
  fst (Console.set_brightness S754_nan (self, w)) = Ok tt /\
  Console.brightness
    (lamp_after (Console.set_brightness S754_nan (self, w))) = S754_nan.
Proof.
  rewrite set_brightness_run. repeat split.
Qed.

(** C5: the state reached by [Console()] followed by
    [set_brightness(float('nan'))] stores a brightness that is not in
    [0.0, 1.0]. *)
Theorem reachable_brightness_nan :
  Console.reachable nan_lamp /\
  Console.brightness (fst nan_lamp) = S754_nan /\
  in_unit_interval (Console.brightness (fst nan_lamp)) = false.
Proof.
  split; [| split; reflexivity].
  exists (0, 0, 0), f1_0, true, quiet, (black true).
  eexists. exists [Console.SetBrightness S754_nan].
  split; reflexivity.
Qed.

(** ** The switch *)

(** C4: on a freshly constructed switch the first [state_changed()]
    returns [False]: the previous state is seeded to the opposite of the
    current one, and the method compares them with [==]. *)
Theorem first_state_changed_is_false (pin : Z) :
  switch._previous_state (switch.__init__ pin) =
    negb (switch._state (switch.__init__ pin)) /\
  fst (switch.state_changed (switch.__init__ pin)) = Ok false.
Proof. split; reflexivity. Qed.

Lemma change_state_run (self : switch.CherrySwitch) :
  switch.change_state self =
  (Ok tt,
   switch.mkCherrySwitch (switch.pin self) (negb (switch._state self))
     (switch._state self) (switch._can_change self) (switch._button self)).
Proof. reflexivity. Qed.

Lemma state_changed_run (self : switch.CherrySwitch) :
  switch.state_changed self =
  (Ok (Bool.eqb (switch._state self) (switch._previous_state self)), self).
Proof. reflexivity. Qed.

Lemma call_seeded_mismatch (op : switch.Op) (self : switch.CherrySwitch) :
  switch._previous_state self = negb (switch._state self) ->
  switch._previous_state (switch.call op self) =
  negb (switch._state (switch.call op self)).
Proof.
  intros H. destruct op; cbn [switch.call].
  - rewrite change_state_run. cbn. rewrite negb_involutive. reflexivity.
  - rewrite state_changed_run. exact H.
  - exact H.
Qed.

(** C10: after construction and any sequence of [change_state],
    [state_changed] and [change_permitted] calls, the previous state is the
    negation of the current one; [state_changed] returns true exactly when
    the two are equal and leaves the switch as it is, so it returns false in
    every reachable state. *)
Theorem state_changed_always_false (pin : Z) (ops : list switch.Op) :
  let self := switch.calls ops (switch.__init__ pin) in
  switch._previous_state self = negb (switch._state self) /\
  (forall s : switch.CherrySwitch,
     snd (switch.state_changed s) = s /\
     (fst (switch.state_changed s) = Ok true <->
      switch._state s = switch._previous_state s)) /\
  switch.state_changed self = (Ok false, self).
Proof.
  cbv zeta.
  assert (Hinv : switch._previous_state (switch.calls ops (switch.__init__ pin))
                 = negb (switch._state (switch.calls ops (switch.__init__ pin)))).
  { assert (H0 : switch._previous_state (switch.__init__ pin) =
                 negb (switch._state (switch.__init__ pin))) by reflexivity.
    generalize dependent (switch.__init__ pin).
    induction ops as [| op ops IH]; intros self H0.
    - exact H0.
    - cbn [switch.calls fold_left]. apply IH, call_seeded_mismatch, H0. }
  split; [exact Hinv |]. split.
  - intros s. rewrite state_changed_run. cbn [fst snd]. split; [reflexivity |].
    split.
    + intros H. injection H as H. apply eqb_prop. exact H.
    + intros ->. rewrite eqb_reflx. reflexivity.
  - rewrite state_changed_run, Hinv.
    destruct (switch._state _); reflexivity.
Qed.

(** ** The reconciliation with the remote store *)

Section ClientProperties.

Variable secrets : gmap string string.
Variable int_of_str : string -> option Z.
Variables url key : string.
Hypothesis secrets_api : secrets !! "aio_api" = Some url.
Hypothesis secrets_key : secrets !! "aio_key" = Some key.

Lemma validate_color_rgb_decode (z : Z) : validate_color (rgb_decode z) = true.
Proof. apply validate_color_spec, rgb_decode_valid. Qed.

Lemma check_color_run (self : Console.t) (w : World)
  (payload first : Json) (rest : list (Result Json)) (E : string) (z : Z) :
  inbox w = Ok payload :: rest ->
  client.getitem_0 payload = Ok first ->
  client.getitem first "value" = Ok (JStr E) ->
  int_of_str E = Some z ->
  client.check_color secrets int_of_str (self, w) =
  (Ok tt,
   (Console.mk (rgb_decode z) (Console.brightness self) (Console.state self),
    mkWorld
      (stdout w ++ [CurrentColor (Console.rgb self)] ++
       (if decide (rgb_decode z <> Console.rgb self)
        then [ColorNowSetTo (rgb_decode z)] else []))
      (slept w)
      (sent w ++ [GET url {[ "X-AIO-Key" := AStr key ]}])
      rest)).
Proof.
  intros Hinbox Hfirst Hvalue Hint.
  unfold client.check_color, client.aio_api, client.construct_call,
    client.aio_key, client.secrets_getitem.
  rewrite secrets_api, secrets_key.
  unfold bind at 1 2 3. unfold ret at 1 2 3. unfold bind at 1. unfold http.
  cbn [world with_world Env_object fst snd]. rewrite Hinbox.
  unfold bind at 1. unfold lift at 1. rewrite Hfirst.
  unfold bind at 1. unfold lift at 1. rewrite Hvalue.
  unfold bind at 1. unfold lift at 1. unfold client.int. rewrite Hint.
  unfold bind at 1. rewrite get_color_run.
  unfold bind at 1.
  destruct (decide (rgb_decode z <> Console.rgb self)) as [Hne | Heq].
  - rewrite set_color_run, validate_color_rgb_decode.
    cbn [Console.brightness Console.state stdout slept sent inbox].
    unfold ret. rewrite <- !app_assoc. reflexivity.
  - apply dec_stable in Heq. unfold ret. rewrite app_nil_r.
    destruct self as [c b s]. cbn in *. subst c. reflexivity.
Qed.

Lemma trigger_color_change_run (draw : nat) (self : Console.t) (w : World) :
  exists color r w',
    suggest_rgb draw (Console.rgb self) = Ok color /\
    client.trigger_color_change secrets draw (self, w) =
    (r, (Console.mk color (Console.brightness self) (Console.state self),
         w')) /\
    sent w' =
    sent w ++
    [POST url (<[ "value" := AInt (rgb_encode color) ]>
                 {[ "X-AIO-Key" := AStr key ]})].
Proof.
  destruct (suggest_rgb_Ok draw (Console.rgb self)) as (color & Hc & Hin & Hne).
  exists color.
  unfold client.trigger_color_change.
  unfold bind at 1. rewrite get_color_run.
  unfold bind at 1. unfold lift at 1. rewrite Hc.
  unfold bind at 1. rewrite set_color_run, (colors_valid _ Hin).
  unfold client.aio_api, client.construct_call, client.aio_key,
    client.secrets_getitem.
  rewrite secrets_api, secrets_key.
  unfold bind at 1 2. unfold ret at 1 2. unfold bind at 1 2. unfold http.
  cbn [world with_world Env_object fst snd
       Console.brightness Console.state stdout slept sent inbox].
  destruct (inbox w) as [| [response | e] rest].
  - eexists _, _. split; [reflexivity |]. split; reflexivity.
  - eexists _, _. split; [reflexivity |]. split; reflexivity.
  - eexists _, _. split; [reflexivity |]. split; reflexivity.
Qed.

(** C6: when the first record of the remote payload holds an integer
    string, one [check_color] returns with the lamp at the decoded color;
    after the one [get_color], [set_color] runs (and prints its line) exactly
    when the decoded color differs from the lamp's. *)
Theorem check_color_remote_wins (self : Console.t) (w : World)
  (record : list (string * Json)) (records : list Json)
  (rest : list (Result Json)) (E : string) (z : Z)
  (Hinbox : inbox w = Ok (JList (JDict record :: records)) :: rest)
  (Hvalue : client.dict_get record "value" = Some (JStr E))
  (Hint : int_of_str E = Some z) :
  let final := client.check_color secrets int_of_str (self, w) in
  fst final = Ok tt /\
  Console.rgb (lamp_after final) = rgb_decode z /\
  stdout (snd (snd final)) =
    stdout w ++ [CurrentColor (Console.rgb self)] ++
    (if decide (rgb_decode z <> Console.rgb self)
     then [ColorNowSetTo (rgb_decode z)] else []).
Proof.
  cbv zeta.
  rewrite (check_color_run self w _ (JDict record) rest E z Hinbox);
    [| reflexivity | cbn [client.getitem]; rewrite Hvalue; reflexivity
     | exact Hint].
  repeat split.
Qed.

(** C8, amended: after one [trigger_color_change] the lamp's color is a
    palette entry that differs from its prior color, and the request posted
    carries [rgb_encode] of that same entry; every palette entry that differs
    from the prior color can be selected, which for a lamp at
    (255, 255, 255), the palette's White, leaves the twelve other entries. *)
Theorem trigger_color_change_applies_and_pushes (draw : nat)
  (self : Console.t) (w : World) :
  let final := client.trigger_color_change secrets draw (self, w) in
  (exists color,
     In color colors /\ color <> Console.rgb self /\
     Console.rgb (lamp_after final) = color /\
     sent (snd (snd final)) =
       sent w ++
       [POST url (<[ "value" := AInt (rgb_encode color) ]>
                    {[ "X-AIO-Key" := AStr key ]})]) /\
  (forall color, In color colors -> color <> Console.rgb self ->
     exists draw',
       Console.rgb
         (lamp_after (client.trigger_color_change secrets draw' (self, w)))
       = color) /\
  length (filter (fun color => color <> (255, 255, 255)) colors) = 12%nat.
Proof.
  cbv zeta. split; [| split; [| reflexivity]].
  - destruct (trigger_color_change_run draw self w)
      as (color & r & w' & Hc & -> & Hsent).
    destruct (suggest_rgb_Ok draw (Console.rgb self))
      as (color' & Hc' & Hin & Hne).
    assert (color' = color) as -> by congruence.
    exists color. repeat split; assumption.
  - intros color Hin Hne.
    destruct (suggest_rgb_any _ _ Hin Hne) as [draw' Hd].
    exists draw'.
    destruct (trigger_color_change_run draw' self w)
      as (color' & r & w' & Hc & -> & _).
    unfold lamp_after. cbn [fst snd Console.rgb]. congruence.
Qed.

End ClientProperties.

Lemma check_color_remote_wins_witness :
  client.demo_secrets !! "aio_api" =
    Some "https://io.adafruit.com/api/v2/user/feeds/lamp/data" /\
  client.demo_secrets !! "aio_key" = Some "aio_demo" /\
  client.decimal "255" = Some (rgb_encode (0, 0, 255)) /\
  Console.rgb
    (lamp_after
       (client.check_color client.demo_secrets client.decimal
          (black true, remote_blue))) = (0, 0, 255).
Proof.
  assert (Hapi : client.demo_secrets !! "aio_api" =
            Some "https://io.adafruit.com/api/v2/user/feeds/lamp/data")
    by reflexivity.
  assert (Hkey : client.demo_secrets !! "aio_key" = Some "aio_demo")
    by reflexivity.
  split; [exact Hapi |]. split; [exact Hkey |]. split; [reflexivity |].
  exact (proj1 (proj2
    (check_color_remote_wins client.demo_secrets client.decimal _ _
       Hapi Hkey (black true) remote_blue [("value", JStr "255")] [] []
       "255" 255 eq_refl eq_refl eq_refl))).
Defined.

(** C8, as stated, fails for a lamp at (255, 255, 255): that color is the
    palette's White, and no draw selects it. *)
Lemma white_is_never_selected :
  In (255, 255, 255) colors /\
  ~ exists draw,
      Console.rgb
        (lamp_after
           (client.trigger_color_change client.demo_secrets draw
              (white, quiet))) = (255, 255, 255).
Proof.
  split.
  - apply list_elem_of_In. unfold colors.
    do 2 apply list_elem_of_further. apply list_elem_of_here.
  - intros [draw Hd].
    destruct (trigger_color_change_run client.demo_secrets _ _
                eq_refl eq_refl draw white quiet)
      as (color & r & w' & Hc & Hrun & _).
    rewrite Hrun in Hd. unfold lamp_after in Hd. cbn [fst snd Console.rgb] in Hd.
    destruct (suggest_rgb_Ok draw (Console.rgb white))
      as (color' & Hc' & _ & Hne).
    apply Hne. cbn [white Console.rgb] in *. congruence.
Qed.

Lemma trigger_color_change_applies_and_pushes_witness :
  client.demo_secrets !! "aio_api" =
    Some "https://io.adafruit.com/api/v2/user/feeds/lamp/data" /\
  client.demo_secrets !! "aio_key" = Some "aio_demo" /\
  exists color,
    In color colors /\ color <> (255, 255, 255) /\
    Console.rgb
      (lamp_after
         (client.trigger_color_change client.demo_secrets 0 (white, quiet)))
      = color /\
    sent (snd (snd (client.trigger_color_change client.demo_secrets 0
                      (white, quiet)))) =
      [POST "https://io.adafruit.com/api/v2/user/feeds/lamp/data"
         (<[ "value" := AInt (rgb_encode color) ]>
            {[ "X-AIO-Key" := AStr "aio_demo" ]})].
Proof.
  assert (Hapi : client.demo_secrets !! "aio_api" =
            Some "https://io.adafruit.com/api/v2/user/feeds/lamp/data")
    by reflexivity.
  assert (Hkey : client.demo_secrets !! "aio_key" = Some "aio_demo")
    by reflexivity.
  split; [exact Hapi |]. split; [exact Hkey |].
  exact (proj1
    (trigger_color_change_applies_and_pushes client.demo_secrets _ _
       Hapi Hkey 0%nat white quiet)).
Defined.

(** * Further properties of the code *)

(** ** lamp.py: validation and the codec *)

(** X1: [validate_color] accepts a color exactly when each of its three
    channels is in [0, 255]. *)
Theorem validate_color_accepts_valid_channels (c : Rgb) :
  validate_color c = true <-> valid_rgb c.
Proof. apply validate_color_spec. Qed.

(** X2: [validate_brightness] accepts exactly the floats of the closed
    interval [0.0, 1.0] and NaN; negative zero is accepted and both
    infinities are refused. *)
Theorem validate_brightness_accepts (b : float) :
  (validate_brightness b = true <->
   in_unit_interval b = true \/ b = S754_nan) /\
  validate_brightness (S754_zero true) = true /\
  validate_brightness (S754_infinity false) = false /\
  validate_brightness (S754_infinity true) = false.
Proof.
  split; [| repeat split].
  rewrite validate_brightness_spec, orb_true_iff.
  split; (intros [H | H]; [left; exact H | right]).
  - destruct b; try discriminate H. reflexivity.
  - subst b. reflexivity.
Qed.

Lemma mod_2_24_split (v : Z) :
  v mod 16777216 =
  ((v / 65536) mod 256 * 256 + (v / 256) mod 256) * 256 + v mod 256.
Proof.
  change 16777216 with (256 * 65536).
  rewrite Z.rem_mul_r by lia.
  change 65536 with (256 * 256) at 1.
  rewrite Z.rem_mul_r by lia.
  rewrite Z.div_div by lia. change (256 * 256) with 65536. lia.
Qed.

(** X3: encoding what [rgb_decode] returns gives the argument back modulo
    2^24, for every integer, negative or wider than 24 bits. *)
Theorem rgb_encode_decode_mod (v : Z) :
  rgb_encode (rgb_decode v) = v mod 2 ^ 24.
Proof.
  rewrite rgb_decode_arith, rgb_encode_arith.
  change (2 ^ 24) with 16777216. symmetry. apply mod_2_24_split.
Qed.

Lemma rgb_decode_encode_valid (c : Rgb) :
  valid_rgb c -> rgb_decode (rgb_encode c) = c.
Proof.
  destruct c as [[red green] blue]. unfold valid_rgb. intros Hc.
  rewrite rgb_encode_arith, rgb_decode_arith. repeat f_equal.
  all: Z.div_mod_to_equations; lia.
Qed.

(** X4: [rgb_encode] does not check its argument, and the round trip
    through [rgb_decode] gives the color back exactly when its channels are
    in [0, 255]. *)
Theorem rgb_round_trip_iff_valid (c : Rgb) :
  rgb_decode (rgb_encode c) = c <-> valid_rgb c.
Proof.
  split.
  - intros <-. apply rgb_decode_valid.
  - apply rgb_decode_encode_valid.
Qed.

(** ** lamp.py: the palette *)

(** X5: the colors [suggest_rgb] can return are exactly the palette
    entries that differ from the current color. *)
Theorem suggest_rgb_outcomes (current color : Rgb) :
  (exists draw, suggest_rgb draw current = Ok color) <->
  In color colors /\ color <> current.
Proof.
  split.
  - intros [draw Hd].
    destruct (suggest_rgb_Ok draw current) as (color' & Hc & Hin & Hne).
    assert (color' = color) as -> by congruence.
    split; assumption.
  - intros [Hin Hne]. apply suggest_rgb_any; assumption.
Qed.

Lemma filter_ne_length {A} `{EqDecision A} (x : A) (l : list A) :
  NoDup l ->
  (length (filter (fun y => y <> x) l) +
   (if bool_decide (x ∈ l) then 1 else 0))%nat = length l.
Proof.
  induction 1 as [| y l Hy Hl IH]; [reflexivity |].
  rewrite filter_cons. destruct (decide (y <> x)) as [Hne | Heq].
  - cbn [length]. rewrite <- IH.
    destruct (bool_decide_reflect (x ∈ y :: l)) as [H1 | H1],
             (bool_decide_reflect (x ∈ l)) as [H2 | H2]; try lia.
    + apply elem_of_cons in H1. destruct H1 as [-> | H1]; contradiction.
    + exfalso. apply H1, list_elem_of_further, H2.
  - apply dec_stable in Heq. subst y.
    rewrite bool_decide_eq_true_2 by apply list_elem_of_here.
    rewrite bool_decide_eq_false_2 in IH by exact Hy. cbn [length]. lia.
Qed.

Lemma colors_NoDup : NoDup colors.
Proof. refine (bool_decide_unpack (NoDup colors) _). vm_compute. exact I. Qed.

(** X6: the thirteen palette entries are pairwise distinct, so the draw is
    made among twelve candidates when the current color is in the palette
    and among thirteen when it is not. *)
Theorem suggest_rgb_candidates (current : Rgb) :
  NoDup colors /\
  length (filter (fun color => color <> current) colors) =
  if bool_decide (current ∈ colors) then 12%nat else 13%nat.
Proof.
  split; [apply colors_NoDup |].
  pose proof (filter_ne_length current colors colors_NoDup) as H.
  change (length colors) with 13%nat in H.
  destruct (bool_decide (current ∈ colors)); lia.
Qed.

(** ** lamp.py: the Console lamp *)

(** X7: a construction that succeeds returns an object holding exactly the
    arguments, which passed both validations, and prints two lines; one
    that fails prints nothing, and the color is checked before the
    brightness. *)
Theorem init_outcome (rgb : Rgb) (brightness : float) (state : bool)
  (w : World) :
  match Console.__init__ rgb brightness state w with
  | (Ok self, w') =>
      self = Console.mk rgb brightness state /\
      validated self /\
      stdout w' =
        stdout w ++ [CreatedConsoleLamp rgb brightness; state_line state] /\
      same_io w w'
  | (Raise e, w') =>
      w' = w /\
      (e = Exception "Each color must be in range 0:255" /\
       ~ valid_rgb rgb \/
       e = Exception "Brightness must but in range 0.0:1.0" /\
       valid_rgb rgb /\ validate_brightness brightness = false)
  end.
Proof.
  unfold Console.__init__. pose proof (validate_color_spec rgb) as Hspec.
  destruct (validate_color rgb) eqn:Ec; cbn [negb].
  - destruct (validate_brightness brightness) eqn:Eb; cbn [negb].
    + destruct state; run; cbn [stdout slept sent inbox].
      all: rewrite <- app_assoc.
      all: repeat split; try (apply Hspec; reflexivity); assumption.
    + cbn. split; [reflexivity |]. right.
      repeat split; apply Hspec; reflexivity.
  - cbn. split; [reflexivity |]. left. split; [reflexivity |].
    intros Hv. apply Hspec in Hv. discriminate Hv.
Qed.

(** X8: [set_color] either stores the color, valid then, and prints one
    line, touching neither brightness nor state, or raises on a color with
    a channel out of [0, 255] and leaves the lamp and the environment as
    they were. *)
Theorem set_color_outcome (rgb : Rgb) (self : Console.t) (w : World) :
  match Console.set_color rgb (self, w) with
  | (Ok _, (self', w')) =>
      valid_rgb rgb /\
      self' = Console.mk rgb (Console.brightness self) (Console.state self) /\
      stdout w' = stdout w ++ [ColorNowSetTo rgb] /\
      same_io w w'
  | (Raise e, s') =>
      ~ valid_rgb rgb /\ s' = (self, w) /\
      e = Exception "Each color must be in range 0:255"
  end.
Proof.
  rewrite set_color_run. pose proof (validate_color_spec rgb) as Hspec.
  destruct (validate_color rgb).
  - repeat split. apply Hspec. reflexivity.
  - repeat split. intros Hv. apply Hspec in Hv. discriminate Hv.
Qed.

(** X9: [set_brightness] either stores the brightness, which is then in
    [0.0, 1.0] or NaN, and prints one line, touching neither color nor
    state, or raises on a number outside the interval and leaves the lamp
    and the environment as they were. *)
Theorem set_brightness_outcome (brightness : float) (self : Console.t)
  (w : World) :
  match Console.set_brightness brightness (self, w) with
  | (Ok _, (self', w')) =>
      in_unit_interval brightness || is_nan brightness = true /\
      self' = Console.mk (Console.rgb self) brightness (Console.state self) /\
      stdout w' = stdout w ++ [BrightnessNow brightness] /\
      same_io w w'
  | (Raise e, s') =>
      in_unit_interval brightness = false /\ is_nan brightness = false /\
      s' = (self, w) /\
      e = Exception "Brightness must but in range 0.0:1.0"
  end.
Proof.
  rewrite set_brightness_run, validate_brightness_spec.
  destruct (in_unit_interval brightness), (is_nan brightness);
    cbn [orb]; repeat split.
Qed.

(** X10: a color that [set_color] accepted is what [get_color] returns
    next, and a brightness that [set_brightness] accepted is what
    [get_brightness] returns next. *)
Theorem setters_then_getters (rgb : Rgb) (brightness : float)
  (self : Console.t) (w : World)
  (Hc : valid_rgb rgb) (Hb : in_unit_interval brightness = true) :
  fst ((Console.set_color rgb ;; Console.get_color)%py (self, w)) = Ok rgb /\
  fst ((Console.set_brightness brightness ;;
        Console.get_brightness)%py (self, w)) = Ok brightness.
Proof.
  apply validate_color_spec in Hc.
  assert (Hb' : validate_brightness brightness = true)
    by (rewrite validate_brightness_spec, Hb; reflexivity).
  split.
  - unfold bind at 1. rewrite set_color_run, Hc. reflexivity.
  - unfold bind at 1. rewrite set_brightness_run, Hb'. reflexivity.
Qed.

Lemma setters_then_getters_witness :
  valid_rgb (1, 2, 3) /\
  in_unit_interval f0_0 = true /\
  fst ((Console.set_color (1, 2, 3) ;; Console.get_color)%py
         (black true, quiet)) = Ok (1, 2, 3) /\
  fst ((Console.set_brightness f0_0 ;; Console.get_brightness)%py
         (black true, quiet)) = Ok f0_0.
Proof.
  assert (Hc : valid_rgb (1, 2, 3)) by (unfold valid_rgb; lia).
  assert (Hb : in_unit_interval f0_0 = true) by reflexivity.
  split; [exact Hc |]. split; [exact Hb |].
  exact (setters_then_getters (1, 2, 3) f0_0 (black true) quiet Hc Hb).
Defined.

(** X11: [set_state] never raises and stores any state; [get_state] then
    returns it, each of the two printing the line of that state, and
    setting the same state twice leaves the lamp as setting it once. *)
Theorem set_state_then_get_state (on : bool) (self : Console.t) (w : World) :
  (Console.set_state on ;; Console.get_state)%py (self, w) =
  (Ok on,
   (Console.mk (Console.rgb self) (Console.brightness self) on,
    mkWorld (stdout w ++ [state_line on; state_line on]) (slept w) (sent w)
            (inbox w))) /\
  lamp_after ((Console.set_state on ;; Console.set_state on)%py (self, w)) =
  lamp_after (Console.set_state on (self, w)).
Proof.
  split.
  - unfold bind at 1. rewrite set_state_run.
    destruct on; run; cbn [fst snd stdout slept sent inbox];
      rewrite <- app_assoc; reflexivity.
  - unfold bind at 1. rewrite !set_state_run. reflexivity.
Qed.













Lemma reachable_validated_witness :
  Console.reachable
    (Console.calls [Console.SetColor (300, 0, 0); Console.SetBrightness f0_0]
       built) /\
  valid_rgb
    (Console.rgb
       (fst (Console.calls
               [Console.SetColor (300, 0, 0); Console.SetBrightness f0_0]
               built))).
Proof.
  assert (H : Console.reachable
                (Console.calls
                   [Console.SetColor (300, 0, 0); Console.SetBrightness f0_0]
                   built)).
  { exists (0, 0, 0), f1_0, true, quiet, (black true). eexists.
    exists [Console.SetColor (300, 0, 0); Console.SetBrightness f0_0].
    split; reflexivity. }
  split; [exact H |].
  exact (proj1 (reachable_validated _ H)).
Defined.


(** ** switch.py *)

Lemma calls_changes (ops : list switch.Op) (self : switch.CherrySwitch) :
  switch.calls ops self =
  switch.mkCherrySwitch (switch.pin self)
    (xorb (switch._state self) (Nat.odd (changes ops)))
    (match changes ops with
     | O => switch._previous_state self
     | S _ => xorb (switch._state self) (Nat.even (changes ops))
     end)
    (switch._can_change self) (switch._button self).
Proof.
  revert self. induction ops as [| op ops IH]; intros self.
  - cbn. rewrite xorb_false_r. destruct self; reflexivity.
  - cbn [switch.calls fold_left]. fold (switch.calls ops (switch.call op self)).
    rewrite IH. destruct op; cbn [switch.call changes].
    + rewrite change_state_run.
      cbn [snd switch.pin switch._state switch._previous_state
           switch._can_change switch._button].
      rewrite Nat.odd_succ, Nat.even_succ.
      rewrite <- (Nat.negb_odd (changes ops)).
      f_equal.
      * destruct (switch._state self), (Nat.odd (changes ops)); reflexivity.
      * destruct (changes ops) as [| n] eqn:E;
          [cbn; rewrite xorb_false_r; reflexivity |].
        destruct (switch._state self), (Nat.odd (S n)); reflexivity.
    + rewrite state_changed_run. reflexivity.
    + reflexivity.
Qed.

(** X17: after any sequence of calls on a fresh switch, the state is the
    parity of the number of [change_state] calls made, and the previous
    state is its negation; [state_changed] and [change_permitted] calls do
    not count. *)
Theorem state_is_parity_of_changes (pin : Z) (ops : list switch.Op) :
  switch._state (switch.calls ops (switch.__init__ pin)) =
    Nat.odd (changes ops) /\
  switch._previous_state (switch.calls ops (switch.__init__ pin)) =
    Nat.even (changes ops).
Proof.
  rewrite calls_changes.
  cbn [switch.__init__ switch._state switch._previous_state xorb].
  split; [reflexivity |].
  destruct (changes ops); reflexivity.
Qed.

(** X18: no call changes the pin, the button or the permission flag of a
    switch, and [change_permitted] answers [True] in every reachable
    state. *)
Theorem switch_frame (pin : Z) (ops : list switch.Op) :
  let self := switch.calls ops (switch.__init__ pin) in
  switch.pin self = pin /\
  switch._button self = switch.mkButton pin /\
  switch._can_change self = true /\
  switch.change_permitted self = (Ok true, self).
Proof.
  cbv zeta. rewrite calls_changes. repeat split.
Qed.

(** X19: two [change_state] calls in a row bring the state back, and on a
    switch whose previous state is the negation of its state, as in every
    reachable state, they bring the whole switch back. *)
Theorem change_state_twice (self : switch.CherrySwitch)
  (H : switch._previous_state self = negb (switch._state self)) :
  (switch.change_state ;; switch.change_state)%py self = (Ok tt, self).
Proof.
  unfold bind at 1. rewrite !change_state_run.
  cbn [switch.pin switch._state switch._previous_state switch._can_change
       switch._button].
  rewrite negb_involutive, <- H. destruct self; reflexivity.
Qed.

Lemma change_state_twice_witness :
  switch._previous_state (switch.__init__ 17) =
    negb (switch._state (switch.__init__ 17)) /\
  (switch.change_state ;; switch.change_state)%py (switch.__init__ 17) =
  (Ok tt, switch.__init__ 17).
Proof.
  assert (H : switch._previous_state (switch.__init__ 17) =
              negb (switch._state (switch.__init__ 17))) by reflexivity.
  split; [exact H |].
  exact (change_state_twice (switch.__init__ 17) H).
Defined.

(** ** client.py *)

Section ClientFurther.

Variable secrets : gmap string string.
Variable int_of_str : string -> option Z.

(** X20: [construct_call] needs the [aio_key] secret: with it the
    dictionary maps [X-AIO-Key] to the key and [value] to the value given,
    if one is given, and has no other entry; without it the call raises
    [KeyError].  It changes nothing. *)
Theorem construct_call_outcome {S : Type} (value : option Any) (s : S) :
  match secrets !! "aio_key" with
  | Some key =>
      exists data : gmap string Any,
        client.construct_call secrets value s = (Ok data, s) /\
        data !! "X-AIO-Key" = Some (AStr key) /\
        data !! "value" = value /\
        size data = match value with Some _ => 2%nat | None => 1%nat end
  | None =>
      client.construct_call secrets value s = (Raise (KeyError "aio_key"), s)
  end.
Proof.
  unfold client.construct_call, client.aio_key, client.secrets_getitem.
  destruct (secrets !! "aio_key") as [key |]; [| reflexivity].
  unfold bind, ret. eexists. split; [reflexivity |].
  destruct value as [v |].
  - split; [| split].
    + rewrite lookup_insert_ne by discriminate. apply lookup_singleton_eq.
    + apply lookup_insert_eq.
    + rewrite map_size_insert_None, map_size_singleton; [reflexivity |].
      apply lookup_singleton_ne. discriminate.
  - split; [| split].
    + apply lookup_singleton_eq.
    + apply lookup_singleton_ne. discriminate.
    + apply map_size_singleton.
Qed.

Lemma check_color_unfold (self : Console.t) (w : World) :
  client.check_color secrets int_of_str (self, w) =
  match secrets !! "aio_api", secrets !! "aio_key" with
  | None, _ => (Raise (KeyError "aio_api"), (self, w))
  | Some _, None => (Raise (KeyError "aio_key"), (self, w))
  | Some url, Some key =>
      let sent' := sent w ++ [GET url {[ "X-AIO-Key" := AStr key ]}] in
      match inbox w with
      | [] =>
          (Raise ConnectionError,
           (self, mkWorld (stdout w) (slept w) sent' []))
      | outcome :: rest =>
          match remote_value int_of_str outcome with
          | Raise e =>
              (Raise e, (self, mkWorld (stdout w) (slept w) sent' rest))
          | Ok encoded =>
              (Ok tt,
               (Console.mk (rgb_decode encoded) (Console.brightness self)
                           (Console.state self),
                mkWorld
                  (stdout w ++ [CurrentColor (Console.rgb self)] ++
                   (if decide (rgb_decode encoded <> Console.rgb self)
                    then [ColorNowSetTo (rgb_decode encoded)] else []))
                  (slept w) sent' rest))
          end
      end
  end.
Proof.
  unfold client.check_color, client.aio_api, client.construct_call,
    client.aio_key, client.secrets_getitem.
  destruct (secrets !! "aio_api") as [url |]; [| reflexivity].
  destruct (secrets !! "aio_key") as [key |]; [| reflexivity].
  unfold bind at 1 2 3. unfold ret at 1 2 3. unfold bind at 1. unfold http.
  cbn [world with_world Env_object fst snd].
  destruct (inbox w) as [| outcome rest]; [reflexivity |].
  cbv zeta. unfold remote_value.
  destruct outcome as [api_response | e]; [| reflexivity].
  unfold bind at 1. unfold lift at 1.
  destruct (client.getitem_0 api_response) as [first | e]; [| reflexivity].
  unfold bind at 1. unfold lift at 1.
  destruct (client.getitem first "value") as [current_color | e];
    [| reflexivity].
  unfold bind at 1. unfold lift at 1.
  destruct (client.int int_of_str current_color) as [encoded | e];
    [| reflexivity].
  unfold bind at 1. rewrite get_color_run.
  unfold bind at 1.
  destruct (decide (rgb_decode encoded <> Console.rgb self)) as [Hne | Heq].
  - rewrite set_color_run, validate_color_rgb_decode.
    cbn [Console.brightness Console.state stdout slept sent inbox].
    unfold ret. rewrite <- !app_assoc. reflexivity.
  - apply dec_stable in Heq. unfold ret. rewrite app_nil_r.
    destruct self as [c b s]. cbn in *. subst c. reflexivity.
Qed.

(** X21: a [check_color] that raises leaves the lamp as it was and prints
    nothing; one that returns leaves a valid color in the lamp and touches
    neither brightness nor state. *)
Theorem check_color_outcome (self : Console.t) (w : World) :
  match client.check_color secrets int_of_str (self, w) with
  | (Raise _, (self', w')) =>
      self' = self /\ stdout w' = stdout w /\ slept w' = slept w
  | (Ok _, (self', w')) =>
      valid_rgb (Console.rgb self') /\
      Console.brightness self' = Console.brightness self /\
      Console.state self' = Console.state self
  end.
Proof.
  rewrite check_color_unfold.
  destruct (secrets !! "aio_api"), (secrets !! "aio_key");
    try solve [repeat split].
  cbv zeta. destruct (inbox w) as [| outcome rest]; [repeat split |].
  destruct (remote_value int_of_str outcome).
  - split; [apply rgb_decode_valid | split; reflexivity].
  - repeat split.
Qed.

(** X22: whatever the remote answers, [check_color] sends exactly one GET
    request, which carries the key and nothing else, and takes at most one
    answer; with a secret missing it sends nothing. *)
Theorem check_color_requests (self : Console.t) (w : World) :
  let w' := snd (snd (client.check_color secrets int_of_str (self, w))) in
  match secrets !! "aio_api", secrets !! "aio_key" with
  | Some url, Some key =>
      sent w' = sent w ++ [GET url {[ "X-AIO-Key" := AStr key ]}] /\
      inbox w' = tail (inbox w)
  | _, _ => sent w' = sent w /\ inbox w' = inbox w
  end.
Proof.
  cbv zeta. rewrite check_color_unfold.
  destruct (secrets !! "aio_api"), (secrets !! "aio_key");
    try solve [repeat split].
  cbv zeta. destruct (inbox w) as [| outcome rest]; [repeat split |].
  destruct (remote_value int_of_str outcome); repeat split.
Qed.

Lemma trigger_color_change_unfold (draw : nat) (self : Console.t)
  (w : World) :
  exists color,
    suggest_rgb draw (Console.rgb self) = Ok color /\
    In color colors /\ color <> Console.rgb self /\
    client.trigger_color_change secrets draw (self, w) =
    let lamp' :=
      Console.mk color (Console.brightness self) (Console.state self) in
    let out :=
      stdout w ++ [CurrentColor (Console.rgb self); ColorNowSetTo color] in
    match secrets !! "aio_key", secrets !! "aio_api" with
    | None, _ =>
        (Raise (KeyError "aio_key"),
         (lamp', mkWorld out (slept w) (sent w) (inbox w)))
    | Some _, None =>
        (Raise (KeyError "aio_api"),
         (lamp', mkWorld out (slept w) (sent w) (inbox w)))
    | Some key, Some url =>
        let sent' :=
          sent w ++
          [POST url (<[ "value" := AInt (rgb_encode color) ]>
                       {[ "X-AIO-Key" := AStr key ]})] in
        match inbox w with
        | [] => (Raise ConnectionError, (lamp', mkWorld out (slept w) sent' []))
        | Raise e :: rest =>
            (Raise e, (lamp', mkWorld out (slept w) sent' rest))
        | Ok response :: rest =>
            (Ok tt,
             (lamp',
              mkWorld (out ++ [NewColor color response]) (slept w) sent' rest))
        end
    end.
Proof.
  destruct (suggest_rgb_Ok draw (Console.rgb self)) as (color & Hc & Hin & Hne).
  exists color. split; [exact Hc |]. split; [exact Hin |].
  split; [exact Hne |].
  unfold client.trigger_color_change.
  unfold bind at 1. rewrite get_color_run.
  unfold bind at 1. unfold lift at 1. rewrite Hc.
  unfold bind at 1. rewrite set_color_run, (colors_valid _ Hin).
  unfold client.aio_api, client.construct_call, client.aio_key,
    client.secrets_getitem.
  cbv zeta. cbn [stdout slept sent inbox]. rewrite <- !app_assoc. cbn [app].
  destruct (secrets !! "aio_key") as [key |]; [| reflexivity].
  destruct (secrets !! "aio_api") as [url |]; [| reflexivity].
  unfold bind at 1 2. unfold ret at 1 2. unfold bind at 1 2. unfold http.
  cbn [world with_world Env_object fst snd
       Console.brightness Console.state stdout slept sent inbox].
  destruct (inbox w) as [| [response | e] rest]; reflexivity.
Qed.

(** X23: a payload that is malformed makes [check_color] raise after its
    request, with the lamp untouched: [IndexError] on an empty list of
    records, [KeyError] on a first record without [value], [ValueError] on
    a value that is a string but not an integer. *)
Theorem check_color_malformed_payload (self : Console.t)
  (out : list Line) (waits : list Z) (reqs : list Request)
  (rest : list (Result Json)) (url key : string)
  (Hapi : secrets !! "aio_api" = Some url)
  (Hkey : secrets !! "aio_key" = Some key) :
  let run payload :=
    client.check_color secrets int_of_str
      (self, mkWorld out waits reqs (Ok payload :: rest)) in
  let after e :=
    (Raise e,
     (self,
      mkWorld out waits (reqs ++ [GET url {[ "X-AIO-Key" := AStr key ]}])
              rest)) in
  run (JList []) = after IndexError /\
  (forall record records,
     client.dict_get record "value" = None ->
     run (JList (JDict record :: records)) = after (KeyError "value")) /\
  (forall record records E,
     client.dict_get record "value" = Some (JStr E) ->
     int_of_str E = None ->
     run (JList (JDict record :: records)) = after ValueError).
Proof.
  cbv zeta. split; [| split].
  - rewrite check_color_unfold, Hapi, Hkey. reflexivity.
  - intros record records Hnone.
    rewrite check_color_unfold, Hapi, Hkey. cbv zeta.
    cbn [inbox remote_value client.getitem_0 client.getitem].
    rewrite Hnone. reflexivity.
  - intros record records E Hsome Hint.
    rewrite check_color_unfold, Hapi, Hkey. cbv zeta.
    cbn [inbox remote_value client.getitem_0 client.getitem].
    rewrite Hsome. cbn [client.int]. rewrite Hint. reflexivity.
Qed.

(** X24: a value that is a JSON integer is read like an integer string:
    [check_color] returns with the lamp at its decoding. *)
Theorem check_color_integer_value (self : Console.t) (w : World)
  (record : list (string * Json)) (records : list Json)
  (rest : list (Result Json)) (url key : string) (z : Z)
  (Hapi : secrets !! "aio_api" = Some url)
  (Hkey : secrets !! "aio_key" = Some key)
  (Hinbox : inbox w = Ok (JList (JDict record :: records)) :: rest)
  (Hvalue : client.dict_get record "value" = Some (JInt z)) :
  fst (client.check_color secrets int_of_str (self, w)) = Ok tt /\
  lamp_after (client.check_color secrets int_of_str (self, w)) =
  Console.mk (rgb_decode z) (Console.brightness self) (Console.state self).
Proof.
  rewrite check_color_unfold, Hapi, Hkey, Hinbox. cbv zeta.
  cbn [remote_value client.getitem_0 client.getitem].
  rewrite Hvalue. cbn [client.int]. split; reflexivity.
Qed.

(** X25: with a secret missing, [trigger_color_change] raises [KeyError]
    after it has changed the color of the lamp: the lamp holds the new
    palette color, and nothing was sent to the remote store. *)
Theorem trigger_color_change_missing_secret (draw : nat) (self : Console.t)
  (w : World)
  (H : secrets !! "aio_key" = None \/ secrets !! "aio_api" = None) :
  let final := client.trigger_color_change secrets draw (self, w) in
  exists color,
    In color colors /\ color <> Console.rgb self /\
    lamp_after final =
      Console.mk color (Console.brightness self) (Console.state self) /\
    (fst final = Raise (KeyError "aio_key") \/
     fst final = Raise (KeyError "aio_api")) /\
    sent (snd (snd final)) = sent w /\
    inbox (snd (snd final)) = inbox w.
Proof.
  cbv zeta.
  destruct (trigger_color_change_unfold draw self w)
    as (color & _ & Hin & Hne & ->).
  exists color. split; [exact Hin |]. split; [exact Hne |]. cbv zeta.
  destruct (secrets !! "aio_key") as [key |] eqn:Ek.
  - destruct (secrets !! "aio_api") as [url |] eqn:Ea.
    + destruct H; discriminate.
    + repeat split. right. reflexivity.
  - repeat split. left. reflexivity.
Qed.

(** X26: when the remote store does not answer the POST,
    [trigger_color_change] raises with the lamp already at the new color:
    the request was sent, and the line of the new color is not printed. *)
Theorem trigger_color_change_remote_failure (draw : nat) (self : Console.t)
  (w : World) (url key : string)
  (Hapi : secrets !! "aio_api" = Some url)
  (Hkey : secrets !! "aio_key" = Some key)
  (Hfail : forall response rest, inbox w <> Ok response :: rest) :
  let final := client.trigger_color_change secrets draw (self, w) in
  exists color,
    In color colors /\ color <> Console.rgb self /\
    lamp_after final =
      Console.mk color (Console.brightness self) (Console.state self) /\
    (exists e, fst final = Raise e) /\
    sent (snd (snd final)) =
      sent w ++
      [POST url (<[ "value" := AInt (rgb_encode color) ]>
                   {[ "X-AIO-Key" := AStr key ]})] /\
    stdout (snd (snd final)) =
      stdout w ++ [CurrentColor (Console.rgb self); ColorNowSetTo color].
Proof.
  cbv zeta.
  destruct (trigger_color_change_unfold draw self w)
    as (color & _ & Hin & Hne & ->).
  exists color. split; [exact Hin |]. split; [exact Hne |].
  rewrite Hapi, Hkey. cbv zeta.
  destruct (inbox w) as [| [response | e] rest] eqn:E.
  - repeat split. eauto.
  - exfalso. exact (Hfail response rest eq_refl).
  - repeat split. eauto.
Qed.

(** X27: a push followed by a pull that reads the pushed value back: the
    lamp keeps the color it was given by the push, and the pull does not
    call [set_color] again. *)
Theorem push_then_pull (draw : nat) (self : Console.t) (w : World)
  (url key : string) (color : Rgb) (response : Json)
  (pulled : Result Json) (rest : list (Result Json))
  (Hapi : secrets !! "aio_api" = Some url)
  (Hkey : secrets !! "aio_key" = Some key)
  (Hdraw : suggest_rgb draw (Console.rgb self) = Ok color)
  (Hinbox : inbox w = Ok response :: pulled :: rest)
  (Hpulled : remote_value int_of_str pulled = Ok (rgb_encode color)) :
  (client.trigger_color_change secrets draw ;;
   client.check_color secrets int_of_str)%py (self, w) =
  (Ok tt,
   (Console.mk color (Console.brightness self) (Console.state self),
    mkWorld
      (stdout w ++
       [CurrentColor (Console.rgb self); ColorNowSetTo color;
        NewColor color response; CurrentColor color])
      (slept w)
      (sent w ++
       [POST url (<[ "value" := AInt (rgb_encode color) ]>
                    {[ "X-AIO-Key" := AStr key ]});
        GET url {[ "X-AIO-Key" := AStr key ]}])
      rest)).
Proof.
  unfold bind at 1.
  destruct (trigger_color_change_unfold draw self w)
    as (color' & Hc & Hin & Hne & ->).
  assert (color' = color) as -> by congruence.
  rewrite Hapi, Hkey, Hinbox. cbv beta iota zeta.
  rewrite check_color_unfold, Hapi, Hkey. cbv zeta.
  cbn [inbox stdout slept sent Console.rgb Console.brightness Console.state].
  rewrite Hpulled.
  rewrite (rgb_decode_encode_valid color)
    by (apply validate_color_spec, colors_valid, Hin).
  destruct (decide (color <> color)) as [Hx | _]; [contradiction |].
  rewrite <- !app_assoc. reflexivity.
Qed.

End ClientFurther.

Lemma check_color_malformed_payload_witness :
  client.demo_secrets !! "aio_api" =
    Some "https://io.adafruit.com/api/v2/user/feeds/lamp/data" /\
  client.demo_secrets !! "aio_key" = Some "aio_demo" /\
  fst (client.check_color client.demo_secrets client.decimal
         (black true, mkWorld [] [] [] [Ok (JList [])])) = Raise IndexError.
Proof.
  assert (Hapi : client.demo_secrets !! "aio_api" =
            Some "https://io.adafruit.com/api/v2/user/feeds/lamp/data")
    by reflexivity.
  assert (Hkey : client.demo_secrets !! "aio_key" = Some "aio_demo")
    by reflexivity.
  split; [exact Hapi |]. split; [exact Hkey |].
  rewrite (proj1 (check_color_malformed_payload client.demo_secrets
                    client.decimal (black true) [] [] [] [] _ _ Hapi Hkey)).
  reflexivity.
Defined.

Lemma check_color_integer_value_witness :
  client.demo_secrets !! "aio_api" =
    Some "https://io.adafruit.com/api/v2/user/feeds/lamp/data" /\
  client.demo_secrets !! "aio_key" = Some "aio_demo" /\
  lamp_after
    (client.check_color client.demo_secrets client.decimal
       (black true,
        mkWorld [] [] [] [Ok (JList [JDict [("value", JInt 255)]])])) =
  Console.mk (0, 0, 255) f1_0 true.
Proof.
  assert (Hapi : client.demo_secrets !! "aio_api" =
            Some "https://io.adafruit.com/api/v2/user/feeds/lamp/data")
    by reflexivity.
  assert (Hkey : client.demo_secrets !! "aio_key" = Some "aio_demo")
    by reflexivity.
  split; [exact Hapi |]. split; [exact Hkey |].
  exact (proj2
    (check_color_integer_value client.demo_secrets client.decimal
       (black true)
       (mkWorld [] [] [] [Ok (JList [JDict [("value", JInt 255)]])])
       [("value", JInt 255)] [] [] _ _ 255 Hapi Hkey eq_refl eq_refl)).
Defined.

Lemma trigger_color_change_missing_secret_witness :
  ((∅ : gmap string string) !! "aio_key" = None \/
   (∅ : gmap string string) !! "aio_api" = None) /\
  exists color,
    In color colors /\ color <> (255, 255, 255) /\
    lamp_after (client.trigger_color_change ∅ 0 (white, quiet)) =
      Console.mk color f1_0 true /\
    (fst (client.trigger_color_change ∅ 0 (white, quiet)) =
       Raise (KeyError "aio_key") \/
     fst (client.trigger_color_change ∅ 0 (white, quiet)) =
       Raise (KeyError "aio_api")) /\
    sent (snd (snd (client.trigger_color_change ∅ 0 (white, quiet)))) = [] /\
    inbox (snd (snd (client.trigger_color_change ∅ 0 (white, quiet)))) = [].
Proof.
  assert (H : (∅ : gmap string string) !! "aio_key" = None \/
              (∅ : gmap string string) !! "aio_api" = None)
    by (left; reflexivity).
  split; [exact H |].
  exact (trigger_color_change_missing_secret ∅ 0%nat white quiet H).
Defined.

Lemma trigger_color_change_remote_failure_witness :
  client.demo_secrets !! "aio_api" =
    Some "https://io.adafruit.com/api/v2/user/feeds/lamp/data" /\
  client.demo_secrets !! "aio_key" = Some "aio_demo" /\
  (forall response rest, inbox quiet <> Ok response :: rest) /\
  exists color,
    In color colors /\ color <> (255, 255, 255) /\
    lamp_after (client.trigger_color_change client.demo_secrets 0
                  (white, quiet)) = Console.mk color f1_0 true /\
    (exists e,
       fst (client.trigger_color_change client.demo_secrets 0 (white, quiet))
       = Raise e).
Proof.
  assert (Hapi : client.demo_secrets !! "aio_api" =
            Some "https://io.adafruit.com/api/v2/user/feeds/lamp/data")
    by reflexivity.
  assert (Hkey : client.demo_secrets !! "aio_key" = Some "aio_demo")
    by reflexivity.
  assert (Hfail : forall response rest, inbox quiet <> Ok response :: rest)
    by (intros response rest; discriminate).
  split; [exact Hapi |]. split; [exact Hkey |]. split; [exact Hfail |].
  destruct (trigger_color_change_remote_failure client.demo_secrets 0%nat
              white quiet _ _ Hapi Hkey Hfail)
    as (color & Hin & Hne & Hlamp & Hraise & _).
  exists color. repeat split; assumption.
Defined.

Lemma push_then_pull_witness :
  client.demo_secrets !! "aio_api" =
    Some "https://io.adafruit.com/api/v2/user/feeds/lamp/data" /\
  client.demo_secrets !! "aio_key" = Some "aio_demo" /\
  suggest_rgb 0 (255, 255, 255) = Ok (255, 100, 0) /\
  remote_value client.decimal
    (Ok (JList [JDict [("value", JStr "16737280")]])) =
    Ok (rgb_encode (255, 100, 0)) /\
  lamp_after
    ((client.trigger_color_change client.demo_secrets 0 ;;
      client.check_color client.demo_secrets client.decimal)%py
       (white,
        mkWorld [] [] []
          [Ok JNone; Ok (JList [JDict [("value", JStr "16737280")]])])) =
  Console.mk (255, 100, 0) f1_0 true.
Proof.
  assert (Hapi : client.demo_secrets !! "aio_api" =
            Some "https://io.adafruit.com/api/v2/user/feeds/lamp/data")
    by reflexivity.
  assert (Hkey : client.demo_secrets !! "aio_key" = Some "aio_demo")
    by reflexivity.
  assert (Hdraw : suggest_rgb 0 (255, 255, 255) = Ok (255, 100, 0))
    by reflexivity.
  assert (Hpulled : remote_value client.decimal
            (Ok (JList [JDict [("value", JStr "16737280")]])) =
            Ok (rgb_encode (255, 100, 0))) by reflexivity.
  split; [exact Hapi |]. split; [exact Hkey |]. split; [exact Hdraw |].
  split; [exact Hpulled |].
  rewrite (push_then_pull client.demo_secrets client.decimal 0%nat white
             (mkWorld [] [] []
                [Ok JNone; Ok (JList [JDict [("value", JStr "16737280")]])])
             _ _ (255, 100, 0) JNone _ [] Hapi Hkey Hdraw eq_refl Hpulled).
  reflexivity.
Defined.
